(** * The WebAssembly out-of-bounds signal handler (V8 trap handler)

    A shallow embedding of [src/trap-handler/handler-inside.cc]:
    [IsKernelGeneratedSignal], [SigUnmaskStack], [TryHandleSignal] and
    [HandleSignal], over an explicit model of the state the handler
    touches (the thread-local flag, the thread's blocked-signal set, the
    metadata lock, the saved instruction pointer of the interrupted
    context, the table of code objects and the process' signal
    dispositions). *)

From Stdlib Require Import ZArith Lia Bool List.
From stdpp Require Import base list gmap.

Local Open Scope Z_scope.

(** ** Machine integers

    [uintptr_t] and [size_t] are 64-bit unsigned, [intptr_t] and
    [ptrdiff_t] 64-bit signed (the handler is compiled for x86-64 Linux
    only, it reads [REG_RIP]).  Values are kept in [Z]; the wrap-around
    of unsigned arithmetic and the conversion to a signed type are
    written out. *)

Definition wrap64 (z : Z) : Z := z mod 2 ^ 64.

Definition sext64 (z : Z) : Z := (z + 2 ^ 63) mod 2 ^ 64 - 2 ^ 63.

Definition is_intptr (z : Z) : bool := (- 2 ^ 63 <=? z) && (z <? 2 ^ 63).

(** ** The part of <signal.h> the handler uses (Linux values) *)

Definition SIGSEGV : Z := 11.

Definition SI_USER : Z := 0.
Definition SI_QUEUE : Z := -1.
Definition SI_TIMER : Z := -2.
Definition SI_MESGQ : Z := -3.
Definition SI_ASYNCIO : Z := -4.

Record siginfo_t := mk_siginfo { si_code : Z }.

(** A signal set is a bit mask, signal [n] being bit [n - 1]. *)
Definition sigset_t : Type := Z.

Definition sigemptyset : sigset_t := 0.

Definition sigaddset (set : sigset_t) (signum : Z) : sigset_t :=
  Z.lor set (Z.shiftl 1 (signum - 1)).

Definition sigismember (set : sigset_t) (signum : Z) : bool :=
  Z.testbit set (signum - 1).

Inductive sigmask_how := SIG_BLOCK | SIG_UNBLOCK | SIG_SETMASK.

Inductive sighandler_t :=
| SIG_DFL
| SIG_IGN
| SIG_FN (entry : Z).

Record sigaction_t := mk_sigaction {
  sa_handler : sighandler_t;
  sa_mask : sigset_t;
  sa_flags : Z
}.

(** ** The registry of code objects

    The declarations of trap-handler.h and trap-handler-internal.h,
    which the handler includes. *)

(** Modelled from the spec: the structure [ProtectedInstructionData]
    (trap-handler.h is not part of the sources), two integer offsets
    from the base of the code object.  They are compared with a
    [ptrdiff_t] and added to a [uintptr_t], as signed pointer-sized
    integers. *)
Record ProtectedInstructionData := mk_instr {
  instr_offset : Z;
  landing_offset : Z
}.

(** Modelled from the spec: the structure [CodeProtectionInfo]
    (trap-handler-internal.h is not part of the sources), a base
    address, a size and the sequence of protected instructions.
    [instructions] is the array of [num_protected_instructions]
    entries, fewer than the [unsigned] counter of the loop over them
    can count. *)
Record CodeProtectionInfo := mk_info {
  base : Z;
  size : Z;
  instructions : list ProtectedInstructionData
}.

Definition num_protected_instructions (data : CodeProtectionInfo) : nat :=
  length (instructions data).

(** Modelled from the spec: a slot of [gCodeObjects]
    (trap-handler-internal.h is not part of the sources), a code range
    or a tombstone; [code_info] is [None] for the null pointer of a
    tombstoned slot. *)
Record CodeProtectionInfoListEntry := mk_entry {
  code_info : option CodeProtectionInfo
}.

(** ** State

    [g_thread_in_wasm_code] is the thread-local flag of the faulting
    thread, [blocked] its blocked-signal set, [metadata_lock_held]
    tells whether it holds the lock of the registry, [REG_RIP] is
    [context->uc_mcontext.gregs[REG_RIP]] as an unsigned 64-bit
    pattern, [gCodeObjects] the array of [gNumCodeObjects] slots,
    [dispositions] the signal dispositions of the process and [raised]
    the signals raised on the thread, oldest first. *)

Record State := mk_state {
  g_thread_in_wasm_code : bool;
  blocked : sigset_t;
  metadata_lock_held : bool;
  REG_RIP : Z;
  gCodeObjects : list CodeProtectionInfoListEntry;
  dispositions : gmap Z sigaction_t;
  raised : list Z
}.


Definition set_thread_in_wasm_code (b : bool) (s : State) : State :=
  mk_state b (blocked s) (metadata_lock_held s) (REG_RIP s)
           (gCodeObjects s) (dispositions s) (raised s).

Definition set_blocked (m : sigset_t) (s : State) : State :=
  mk_state (g_thread_in_wasm_code s) m (metadata_lock_held s) (REG_RIP s)
           (gCodeObjects s) (dispositions s) (raised s).

Definition set_metadata_lock_held (b : bool) (s : State) : State :=
  mk_state (g_thread_in_wasm_code s) (blocked s) b (REG_RIP s)
           (gCodeObjects s) (dispositions s) (raised s).

Definition set_REG_RIP (v : Z) (s : State) : State :=
  mk_state (g_thread_in_wasm_code s) (blocked s) (metadata_lock_held s) v
           (gCodeObjects s) (dispositions s) (raised s).

Definition set_disposition (signum : Z) (act : sigaction_t) (s : State) : State :=
  mk_state (g_thread_in_wasm_code s) (blocked s) (metadata_lock_held s)
           (REG_RIP s) (gCodeObjects s) (<[signum := act]> (dispositions s))
           (raised s).

Definition add_raised (signum : Z) (s : State) : State :=
  mk_state (g_thread_in_wasm_code s) (blocked s) (metadata_lock_held s)
           (REG_RIP s) (gCodeObjects s) (dispositions s)
           (raised s ++ [signum]).

(** ** Events

    Every access the handler makes to the state outside its own locals
    is logged with the state it leaves, in program order. *)

Inductive Event :=
| EvSetThreadInWasm (b : bool)
| EvSigmask (how : sigmask_how) (set : sigset_t)
| EvLock
| EvUnlock
| EvLoadSlot (i : nat)
| EvDeref (i : nat)
| EvWriteRip (v : Z)
| EvSigaction (signum : Z) (act : sigaction_t)
| EvRaise (signum : Z).

Definition Trace : Type := list (Event * State).

(** ** A monad for the handler's control flow

    A statement ends normally, by a [return] of the enclosing function,
    or by the end of the process ([abort()] or a null dereference). *)

Inductive Crash := Abort | NullDeref.

Inductive Ctl (A : Type) :=
| Normal (a : A)
| Returned (r : bool)
| Crashed (c : Crash).

Arguments Normal {A} a.
Arguments Returned {A} r.
Arguments Crashed {A} c.

Definition M (A : Type) : Type := State -> Ctl A * State * Trace.

Definition pure {A} (a : A) : M A := fun s => (Normal a, s, []).

Definition ret {A} (r : bool) : M A := fun s => (Returned r, s, []).

Definition crash {A} (c : Crash) : M A := fun s => (Crashed c, s, []).

Definition bind {A B} (m : M A) (k : A -> M B) : M B :=
  fun s =>
    match m s with
    | (Normal a, s1, t1) =>
        match k a s1 with (r, s2, t2) => (r, s2, t1 ++ t2) end
    | (Returned r, s1, t1) => (Returned r, s1, t1)
    | (Crashed c, s1, t1) => (Crashed c, s1, t1)
    end.

Declare Scope handler_scope.
Delimit Scope handler_scope with handler.
Notation "x <- c1 ;; c2" := (bind c1 (fun x => c2))
  (at level 100, c1 at next level, c2 at level 200, right associativity)
  : handler_scope.
Notation "c1 ;; c2" := (bind c1 (fun _ => c2))
  (at level 100, c2 at level 200, right associativity) : handler_scope.

Definition get {A} (f : State -> A) : M A := fun s => (Normal (f s), s, []).

Definition step (e : Event) (f : State -> State) : M unit :=
  fun s => (Normal tt, f s, [(e, f s)]).

(** The body of a function returning [bool]: it can only end by
    [return]. *)
Definition call (body : M Empty_set) : M bool :=
  fun s =>
    match body s with
    | (Normal e, _, _) => match e with end
    | (Returned r, s1, t1) => (Normal r, s1, t1)
    | (Crashed c, s1, t1) => (Crashed c, s1, t1)
    end.

(** A block whose local object is destroyed when control leaves it,
    by falling off its end or by [return]; [abort()] unwinds nothing. *)
Definition at_scope_exit {A} (body : M A) (dtor : M unit) : M A :=
  fun s =>
    match body s with
    | (Crashed c, s1, t1) => (Crashed c, s1, t1)
    | (r, s1, t1) =>
        match dtor s1 with
        | (Normal _, s2, t2) => (r, s2, t1 ++ t2)
        | (Returned b, s2, t2) => (Returned b, s2, t1 ++ t2)
        | (Crashed c, s2, t2) => (Crashed c, s2, t1 ++ t2)
        end
    end.

Local Open Scope handler_scope.

(** ** Primitives *)

(** Modelled from the spec: [IsThreadInWasm] (trap-handler.h is not
    part of the sources) reads the flag of the faulting thread. *)
Definition IsThreadInWasm : M bool := get g_thread_in_wasm_code.

(** [pthread_sigmask(how, &set, &old)], returning the old mask. *)
Definition pthread_sigmask (how : sigmask_how) (set : sigset_t) : M sigset_t :=
  fun s =>
    let old := blocked s in
    let new := match how with
               | SIG_BLOCK => Z.lor old set
               | SIG_UNBLOCK => Z.ldiff old set
               | SIG_SETMASK => set
               end in
    (Normal old, set_blocked new s, [(EvSigmask how set, set_blocked new s)]).

Definition sigaction (signum : Z) (act : sigaction_t) : M unit :=
  step (EvSigaction signum act) (set_disposition signum act).

Definition raise (signum : Z) : M unit :=
  step (EvRaise signum) (add_raised signum).

(** Modelled from the spec: the constructor and destructor of
    [MetadataLock] (handler-shared.cc is not part of the sources).  The
    registry mutex may only be taken by a thread whose flag is false,
    which an assertion in the constructor enforces, as the comment
    above [MetadataLock lock_holder] in the handler says too; waiting
    for another holder does not show in the state of the faulting
    thread. *)
Definition MetadataLock_ctor : M unit :=
  in_wasm <- get g_thread_in_wasm_code ;;
  if in_wasm then crash Abort
  else step EvLock (set_metadata_lock_held true).

Definition MetadataLock_dtor : M unit :=
  step EvUnlock (set_metadata_lock_held false).

Definition with_MetadataLock {A} (body : M A) : M A :=
  MetadataLock_ctor ;; at_scope_exit body MetadataLock_dtor.

(** ** handler-inside.cc *)

Definition IsKernelGeneratedSignal (info : siginfo_t) : bool :=
  (0 <? si_code info) && negb (si_code info =? SI_USER) &&
  negb (si_code info =? SI_QUEUE) && negb (si_code info =? SI_TIMER) &&
  negb (si_code info =? SI_ASYNCIO) && negb (si_code info =? SI_MESGQ).

(** [class SigUnmaskStack]: the constructor unblocks [sigs] and keeps
    the previous mask in [old_mask_], the destructor sets it back. *)
Definition SigUnmaskStack_ctor (sigs : sigset_t) : M sigset_t :=
  pthread_sigmask SIG_UNBLOCK sigs.

Definition SigUnmaskStack_dtor (old_mask_ : sigset_t) : M unit :=
  pthread_sigmask SIG_SETMASK old_mask_ ;; pure tt.

Definition with_SigUnmaskStack {A} (sigs : sigset_t) (body : M A) : M A :=
  old_mask_ <- SigUnmaskStack_ctor sigs ;;
  at_scope_exit body (SigUnmaskStack_dtor old_mask_).

(** [fault_addr >= base && fault_addr < base + data->size] *)
Definition in_code_range (data : CodeProtectionInfo) (fault_addr : Z) : bool :=
  (base data <=? fault_addr) && (fault_addr <? wrap64 (base data + size data)).

(** [const ptrdiff_t offset = fault_addr - base;] *)
Definition fault_offset (data : CodeProtectionInfo) (fault_addr : Z) : Z :=
  sext64 (wrap64 (fault_addr - base data)).

(** The inner loop over [data->instructions]: the first entry whose
    [instr_offset] is [offset] redirects the context and returns
    true. *)
Fixpoint scan_instructions (base_ offset : Z)
    (instrs : list ProtectedInstructionData) : M unit :=
  match instrs with
  | [] => pure tt
  | ins :: rest =>
      if instr_offset ins =? offset then
        step (EvWriteRip (wrap64 (landing_offset ins + base_)))
             (set_REG_RIP (wrap64 (landing_offset ins + base_))) ;;
        ret true
      else scan_instructions base_ offset rest
  end.

(** [data->...]: a null [data] must never get here. *)
Definition deref (i : nat) (data : option CodeProtectionInfo)
    : M CodeProtectionInfo :=
  match data with
  | None => crash NullDeref
  | Some d => step (EvDeref i) id ;; pure d
  end.

(** The outer loop, from slot [i] on; [objs] are the slots [i],
    [i + 1], ... up to [gNumCodeObjects]. *)
Fixpoint scan_code_objects (fault_addr : Z) (i : nat)
    (objs : list CodeProtectionInfoListEntry) : M unit :=
  match objs with
  | [] => pure tt
  | entry :: rest =>
      step (EvLoadSlot i) id ;;
      (match code_info entry with
       | None => pure tt
       | data =>
           d <- deref i data ;;
           if in_code_range d fault_addr then
             scan_instructions (base d) (fault_offset d fault_addr)
                               (instructions d)
           else pure tt
       end) ;;
      scan_code_objects fault_addr (S i) rest
  end.

Definition TryHandleSignal (signum : Z) (info : siginfo_t) : M bool :=
  call (
    (if negb (signum =? SIGSEGV) then ret false else pure tt) ;;
    (if negb (IsKernelGeneratedSignal info) then ret false else pure tt) ;;
    in_wasm <- IsThreadInWasm ;;
    (if negb in_wasm then ret false else pure tt) ;;
    step (EvSetThreadInWasm false) (set_thread_in_wasm_code false) ;;
    (let sigs := sigaddset sigemptyset SIGSEGV in
     with_SigUnmaskStack sigs (
       fault_addr <- get (fun s => wrap64 (REG_RIP s)) ;;
       with_MetadataLock (
         objs <- get gCodeObjects ;;
         scan_code_objects fault_addr 0 objs))) ;;
    step (EvSetThreadInWasm true) (set_thread_in_wasm_code true) ;;
    ret false).

Definition HandleSignal (signum : Z) (info : siginfo_t) : M unit :=
  handled <- TryHandleSignal signum info ;;
  if negb handled then
    (let action := mk_sigaction SIG_DFL sigemptyset 0 in
     sigaction signum action) ;;
    if negb (IsKernelGeneratedSignal info) then raise signum else pure tt
  else pure tt.

(** ** What the scan computes

    The landing address the two loops find, and the accesses they log,
    as plain functions of the table. *)

Definition matches_offset (offset : Z) (ins : ProtectedInstructionData) : Prop :=
  instr_offset ins = offset.

#[global] Instance matches_offset_dec offset ins : Decision (matches_offset offset ins).
Proof. unfold matches_offset. apply _. Defined.

Definition landing_in (d : CodeProtectionInfo) (fault_addr : Z) : option Z :=
  if in_code_range d fault_addr then
    match list_find (matches_offset (fault_offset d fault_addr)) (instructions d) with
    | Some (_, ins) => Some (wrap64 (landing_offset ins + base d))
    | None => None
    end
  else None.

Fixpoint find_landing (fault_addr : Z)
    (objs : list CodeProtectionInfoListEntry) : option Z :=
  match objs with
  | [] => None
  | entry :: rest =>
      match code_info entry with
      | None => find_landing fault_addr rest
      | Some d =>
          match landing_in d fault_addr with
          | Some v => Some v
          | None => find_landing fault_addr rest
          end
      end
  end.

Fixpoint scan_events (fault_addr : Z) (i : nat)
    (objs : list CodeProtectionInfoListEntry) (s : State) : Trace :=
  match objs with
  | [] => []
  | entry :: rest =>
      (EvLoadSlot i, s) ::
      match code_info entry with
      | None => scan_events fault_addr (S i) rest s
      | Some d =>
          (EvDeref i, s) ::
          match landing_in d fault_addr with
          | Some v => [(EvWriteRip v, set_REG_RIP v s)]
          | None => scan_events fault_addr (S i) rest s
          end
      end
  end.

(** ** Vocabulary of the statements *)

(** The signal set the handler unblocks around the scan. *)
Definition unmasked : sigset_t := sigaddset sigemptyset SIGSEGV.

(** The state when the scan starts: flag cleared, signal unblocked,
    lock taken. *)
Definition scan_state (s : State) : State :=
  set_metadata_lock_held true
    (set_blocked (Z.ldiff (blocked s) unmasked)
       (set_thread_in_wasm_code false s)).

Definition prologue (s : State) : Trace :=
  [(EvSetThreadInWasm false, set_thread_in_wasm_code false s);
   (EvSigmask SIG_UNBLOCK unmasked,
    set_blocked (Z.ldiff (blocked s) unmasked) (set_thread_in_wasm_code false s));
   (EvLock, scan_state s)].

Definition passes_filters (signum : Z) (info : siginfo_t) (s : State) : bool :=
  (signum =? SIGSEGV) && IsKernelGeneratedSignal info && g_thread_in_wasm_code s.

(** The software origins of a signal that [si_code] names. *)
Definition software_origin (code : Z) : Prop :=
  code = SI_USER \/ code = SI_QUEUE \/ code = SI_TIMER \/
  code = SI_ASYNCIO \/ code = SI_MESGQ.

Definition same_mask_but_SIGSEGV (s s1 : State) : Prop :=
  forall signum, signum <> SIGSEGV ->
    sigismember (blocked s1) signum = sigismember (blocked s) signum.

Definition set_gCodeObjects (objs : list CodeProtectionInfoListEntry)
    (s : State) : State :=
  mk_state (g_thread_in_wasm_code s) (blocked s) (metadata_lock_held s)
           (REG_RIP s) objs (dispositions s) (raised s).

(** What [HandleSignal] installs: [sa_handler = SIG_DFL], an empty
    [sa_mask], [sa_flags = 0]. *)
Definition default_action : sigaction_t := mk_sigaction SIG_DFL sigemptyset 0.

(** The invariant of [g_thread_in_wasm_code]: false whenever the thread
    holds the metadata lock. *)
Definition lock_inv (s : State) : Prop :=
  metadata_lock_held s = true -> g_thread_in_wasm_code s = false.

(** Along a trace that starts in [prev]: the lock is only taken in a
    state whose flag is false, and the invariant holds after every
    access. *)
Fixpoint lock_discipline (prev : State) (t : Trace) : Prop :=
  match t with
  | [] => True
  | (e, s1) :: rest =>
      (e = EvLock -> g_thread_in_wasm_code prev = false) /\
      lock_inv s1 /\
      lock_discipline s1 rest
  end.

Definition quiet (es : Event * State) : Prop :=
  es.1 <> EvLock /\ lock_inv es.2.

Definition is_live (entry : CodeProtectionInfoListEntry) : bool :=
  match code_info entry with Some _ => true | None => false end.

(** The state with the tombstoned slots taken out of the registry. *)
Definition without_tombstones (s : State) : State :=
  set_gCodeObjects (List.filter is_live (gCodeObjects s)) s.

(** The address of a protected instruction and of its landing pad:
    the base of the code object plus the offset, in pointer arithmetic. *)
Definition instr_addr (d : CodeProtectionInfo) (ins : ProtectedInstructionData) : Z :=
  wrap64 (base d + instr_offset ins).

Definition landing_addr (d : CodeProtectionInfo) (ins : ProtectedInstructionData) : Z :=
  wrap64 (base d + landing_offset ins).

(** [uintptr_t fault_addr = context->uc_mcontext.gregs[REG_RIP];] *)
Definition fault_address (s : State) : Z := wrap64 (REG_RIP s).

(** One past the last address of a range, as the range test computes
    it. *)
Definition range_end (d : CodeProtectionInfo) : Z := wrap64 (base d + size d).

Definition ranges_overlap (d1 d2 : CodeProtectionInfo) : bool :=
  Z.max (base d1) (base d2) <? Z.min (range_end d1) (range_end d2).

Definition entries_overlap (e1 e2 : CodeProtectionInfoListEntry) : bool :=
  match code_info e1, code_info e2 with
  | Some d1, Some d2 => ranges_overlap d1 d2
  | _, _ => false
  end.

(** The live ranges of the registry are pairwise disjoint. *)
Fixpoint registry_disjoint (objs : list CodeProtectionInfoListEntry) : bool :=
  match objs with
  | [] => true
  | e :: rest =>
      forallb (fun e' => negb (entries_overlap e e')) rest &&
      registry_disjoint rest
  end.

(** The accesses made between the constructor and the destructor of
    [SigUnmaskStack]. *)
Definition in_unmask_window (e : Event) : bool :=
  match e with
  | EvLock | EvUnlock | EvLoadSlot _ | EvDeref _ | EvWriteRip _ => true
  | _ => false
  end.


(** A code object whose base and size are non-negative and whose size
    fits a [ptrdiff_t]. *)
Definition range_typed (d : CodeProtectionInfo) : bool :=
  (0 <=? base d) && (0 <=? size d) && (size d <=? 2 ^ 63).

Definition registry_typed (objs : list CodeProtectionInfoListEntry) : bool :=
  forallb (fun e => match code_info e with
                    | Some d => range_typed d
                    | None => true
                    end) objs.

(** ** Example inputs *)

Definition demo_info : CodeProtectionInfo :=
  mk_info 0x1000 0x100 [mk_instr 0x10 0x50].

Definition demo_state (in_wasm : bool) (rip : Z) : State :=
  mk_state in_wasm 0 false rip [mk_entry None; mk_entry (Some demo_info)]
           ∅ [].

Definition kernel_info : siginfo_t := mk_siginfo 1.

(** * Proofs *)

Ltac run_monad :=
  unfold with_SigUnmaskStack, with_MetadataLock, SigUnmaskStack_ctor,
    SigUnmaskStack_dtor, MetadataLock_ctor, MetadataLock_dtor, IsThreadInWasm,
    pthread_sigmask, sigaction, raise, at_scope_exit, call, bind, step, get,
    pure, ret, crash; simpl.

Lemma scan_instructions_run b off instrs s :
  scan_instructions b off instrs s =
  match list_find (matches_offset off) instrs with
  | Some (_, ins) =>
      (Returned true, set_REG_RIP (wrap64 (landing_offset ins + b)) s,
       [(EvWriteRip (wrap64 (landing_offset ins + b)),
         set_REG_RIP (wrap64 (landing_offset ins + b)) s)])
  | None => (Normal tt, s, [])
  end.
Proof.
  induction instrs as [|ins rest IH]; simpl; [reflexivity|].
  unfold matches_offset at 1.
  destruct (Z.eqb_spec (instr_offset ins) off) as [E|E].
  - rewrite decide_True by exact E. reflexivity.
  - rewrite decide_False by exact E. rewrite IH.
    destruct (list_find (matches_offset off) rest) as [[j q]|]; reflexivity.
Qed.

Lemma scan_code_objects_run a objs : forall i s,
  scan_code_objects a i objs s =
  (match find_landing a objs with
   | Some _ => Returned true
   | None => Normal tt
   end,
   match find_landing a objs with
   | Some v => set_REG_RIP v s
   | None => s
   end,
   scan_events a i objs s).
Proof.
  induction objs as [|e rest IH]; intros i s; [reflexivity|].
  cbn [scan_code_objects find_landing scan_events].
  destruct (code_info e) as [d|] eqn:Ed.
  - unfold landing_in, deref, bind, step, pure, id. cbn beta iota.
    destruct (in_code_range d a).
    + rewrite scan_instructions_run.
      destruct (list_find _ (instructions d)) as [[j q]|]; [reflexivity|].
      rewrite IH. reflexivity.
    + rewrite IH. reflexivity.
  - unfold bind, step, pure, id. rewrite IH. reflexivity.
Qed.

Lemma TryHandleSignal_filtered signum info s :
  passes_filters signum info s = false ->
  TryHandleSignal signum info s = (Normal false, s, []).
Proof.
  unfold passes_filters, TryHandleSignal. intros H. run_monad.
  destruct (signum =? SIGSEGV); simpl; [|reflexivity].
  destruct (IsKernelGeneratedSignal info); simpl; [|reflexivity].
  simpl in H. rewrite H. reflexivity.
Qed.

Lemma TryHandleSignal_run signum info s :
  passes_filters signum info s = true ->
  TryHandleSignal signum info s =
  match find_landing (wrap64 (REG_RIP s)) (gCodeObjects s) with
  | Some v =>
      let s5 := set_metadata_lock_held false (set_REG_RIP v (scan_state s)) in
      let s6 := set_blocked (blocked s) s5 in
      (Normal true, s6,
       prologue s ++
       scan_events (wrap64 (REG_RIP s)) 0 (gCodeObjects s) (scan_state s) ++
       [(EvUnlock, s5); (EvSigmask SIG_SETMASK (blocked s), s6)])
  | None =>
      let s5 := set_metadata_lock_held false (scan_state s) in
      let s6 := set_blocked (blocked s) s5 in
      let s7 := set_thread_in_wasm_code true s6 in
      (Normal false, s7,
       prologue s ++
       scan_events (wrap64 (REG_RIP s)) 0 (gCodeObjects s) (scan_state s) ++
       [(EvUnlock, s5); (EvSigmask SIG_SETMASK (blocked s), s6);
        (EvSetThreadInWasm true, s7)])
  end.
Proof.
  unfold passes_filters. intros H.
  apply andb_prop in H as [H Hf]. apply andb_prop in H as [Hs Hk].
  unfold TryHandleSignal. run_monad.
  rewrite Hs; simpl. rewrite Hk; simpl. rewrite Hf; simpl.
  rewrite scan_code_objects_run. fold unmasked. simpl.
  destruct (find_landing _ _) as [v|]; simpl;
    unfold prologue, scan_state; simpl; rewrite <- ?app_assoc; reflexivity.
Qed.

(** *** The accesses of the scan *)

Lemma scan_events_all (P : Event * State -> Prop) a objs : forall i s,
  (forall j, P (EvLoadSlot j, s)) -> (forall j, P (EvDeref j, s)) ->
  (forall v, P (EvWriteRip v, set_REG_RIP v s)) ->
  Forall P (scan_events a i objs s).
Proof.
  induction objs as [|e rest IH]; intros i s Hl Hd Hw; simpl; [constructor|].
  constructor; [apply Hl|].
  destruct (code_info e) as [d|]; [|apply IH; assumption].
  constructor; [apply Hd|].
  destruct (landing_in d a) as [v|]; [|apply IH; assumption].
  constructor; [apply Hw|constructor].
Qed.

Lemma scan_events_no_write a objs : forall i s,
  find_landing a objs = None ->
  Forall (fun es => (forall v, es.1 <> EvWriteRip v) /\ es.2 = s)
         (scan_events a i objs s).
Proof.
  induction objs as [|e rest IH]; intros i s H; simpl in *; [constructor|].
  constructor; [split; [discriminate|reflexivity]|].
  destruct (code_info e) as [d|]; [|apply IH; assumption].
  constructor; [split; [discriminate|reflexivity]|].
  destruct (landing_in d a) as [v|]; [discriminate|apply IH; assumption].
Qed.

Lemma scan_events_deref a objs : forall i s j s1,
  (EvDeref j, s1) ∈ scan_events a i objs s ->
  (i <= j)%nat /\
  exists e d, objs !! (j - i)%nat = Some e /\ code_info e = Some d.
Proof.
  induction objs as [|e rest IH]; intros i s j s1 H; simpl in H.
  - apply elem_of_nil in H. contradiction.
  - apply elem_of_cons in H as [H|H]; [discriminate|].
    assert (Hrest : (EvDeref j, s1) ∈ scan_events a (S i) rest s ->
                    (i <= j)%nat /\
                    exists e0 d, (e :: rest) !! (j - i)%nat = Some e0 /\
                                 code_info e0 = Some d).
    { intros H'. apply IH in H' as [Hle (e0 & d & Hl & Hc)].
      split; [lia|]. exists e0, d. split; [|exact Hc].
      replace (j - i)%nat with (S (j - S i)) by lia. exact Hl. }
    destruct (code_info e) as [d|] eqn:Ed; [|auto].
    apply elem_of_cons in H as [H|H].
    + injection H as -> ->. split; [lia|]. exists e, d.
      rewrite Nat.sub_diag. split; [reflexivity|exact Ed].
    + destruct (landing_in d a) as [v|]; [|auto].
      apply list_elem_of_singleton in H. discriminate.
Qed.

(** *** Filters *)

Lemma not_kernel_generated info :
  si_code info <= 0 \/ software_origin (si_code info) ->
  IsKernelGeneratedSignal info = false.
Proof.
  intros H. apply not_true_iff_false. intros Hk.
  unfold IsKernelGeneratedSignal in Hk.
  repeat (apply andb_prop in Hk as [Hk ?]).
  repeat match goal with
         | E : negb (_ =? _) = true |- _ =>
             apply negb_true_iff, Z.eqb_neq in E
         end.
  apply Z.ltb_lt in Hk.
  unfold software_origin in H.
  destruct H as [H|[H|[H|[H|[H|H]]]]]; [lia|contradiction..].
Qed.

(** C5: a fault whose signal is not SIGSEGV, or whose [si_code] is not
    positive or is one of the software origins (explicit signal, queued
    signal, timer, asynchronous I/O, message queue), is declined: the
    handler returns false, touches nothing and logs no access, whatever
    the fault address and the registry are. *)
Theorem C5_not_kernel_or_other_signal_declined signum info s :
  signum <> SIGSEGV \/ si_code info <= 0 \/ software_origin (si_code info) ->
  TryHandleSignal signum info s = (Normal false, s, []).
Proof.
  intros H. apply TryHandleSignal_filtered. unfold passes_filters.
  destruct H as [H|H].
  - apply Z.eqb_neq in H. rewrite H. reflexivity.
  - rewrite (not_kernel_generated info H), andb_false_r. reflexivity.
Qed.

(** A timer-originated SIGSEGV at the address of a registered protected
    instruction, and a kernel-generated SIGBUS at the same address. *)
Lemma C5_witness :
  (si_code (mk_siginfo SI_TIMER) <= 0 /\
   TryHandleSignal SIGSEGV (mk_siginfo SI_TIMER) (demo_state true 0x1010) =
   (Normal false, demo_state true 0x1010, [])) /\
  (7 <> SIGSEGV /\
   TryHandleSignal 7 kernel_info (demo_state true 0x1010) =
   (Normal false, demo_state true 0x1010, [])).
Proof.
  split; split.
  - vm_compute. discriminate.
  - apply C5_not_kernel_or_other_signal_declined. right; left.
    vm_compute. discriminate.
  - vm_compute. discriminate.
  - apply C5_not_kernel_or_other_signal_declined. left.
    vm_compute. discriminate.
Defined.

(** C6: a fault delivered while [g_thread_in_wasm_code] is false is
    declined, whatever the signal, its origin, the fault address and the
    registry are; nothing is touched. *)
Theorem C6_not_in_wasm_declined signum info s :
  g_thread_in_wasm_code s = false ->
  TryHandleSignal signum info s = (Normal false, s, []).
Proof.
  intros H. apply TryHandleSignal_filtered. unfold passes_filters.
  rewrite H, andb_false_r. reflexivity.
Qed.

Lemma C6_witness :
  g_thread_in_wasm_code (demo_state false 0x1010) = false /\
  TryHandleSignal SIGSEGV kernel_info (demo_state false 0x1010) =
  (Normal false, demo_state false 0x1010, []).
Proof.
  split; [reflexivity|].
  apply C6_not_in_wasm_declined. reflexivity.
Defined.

(** The handler always returns: neither the assertion of the lock nor
    a null dereference ends the process. *)
Lemma TryHandleSignal_returns signum info s :
  exists b s' t, TryHandleSignal signum info s = (Normal b, s', t).
Proof.
  destruct (passes_filters signum info s) eqn:Hp.
  - rewrite (TryHandleSignal_run _ _ _ Hp).
    destruct (find_landing _ _); cbv zeta; eauto.
  - rewrite (TryHandleSignal_filtered _ _ _ Hp). eauto.
Qed.

(** *** The resume pointer *)

Lemma declined_trace_no_write signum info s s' t :
  TryHandleSignal signum info s = (Normal false, s', t) ->
  REG_RIP s' = REG_RIP s /\
  Forall (fun es => (forall v, es.1 <> EvWriteRip v) /\
                    REG_RIP es.2 = REG_RIP s) t.
Proof.
  destruct (passes_filters signum info s) eqn:Hp.
  - rewrite (TryHandleSignal_run _ _ _ Hp).
    destruct (find_landing _ _) as [v|] eqn:Hf; [discriminate|].
    cbv zeta. intros H. injection H as <- <-. split; [reflexivity|].
    repeat (constructor; [split; [discriminate|reflexivity]|]).
    apply Forall_app. split.
    + eapply Forall_impl; [apply scan_events_no_write; exact Hf|].
      intros [e s1] [Hw ->]. split; [exact Hw|reflexivity].
    + repeat constructor; simpl; discriminate.
  - rewrite (TryHandleSignal_filtered _ _ _ Hp).
    intros H. injection H as <- <-. split; [reflexivity|constructor].
Qed.

(** C10: when the handler returns false the saved instruction pointer
    has its value of fault delivery, at the end and after every access
    in between, none of which is a write to it; a write to it occurs
    only in a run that returns true. *)
Theorem C10_rip_written_only_when_handled signum info s r s' t :
  TryHandleSignal signum info s = (r, s', t) ->
  (r = Normal false ->
   REG_RIP s' = REG_RIP s /\
   Forall (fun es => (forall v, es.1 <> EvWriteRip v) /\
                     REG_RIP es.2 = REG_RIP s) t) /\
  (forall v s1, (EvWriteRip v, s1) ∈ t -> r = Normal true).
Proof.
  intros H. split.
  - intros ->. eapply declined_trace_no_write; exact H.
  - intros v s1 Hin.
    destruct (TryHandleSignal_returns signum info s) as (b & s2 & t2 & Hr).
    assert (r = Normal b) as -> by congruence.
    destruct b; [reflexivity|]. exfalso.
    apply declined_trace_no_write in H as [_ Hall].
    rewrite Forall_forall in Hall.
    destruct (Hall _ Hin) as [Hw _]. exact (Hw v eq_refl).
Qed.

(** The five ways to decline: another signal, a software origin, a
    thread outside sandboxed code, an address in no range, and an
    address in a range at an unprotected offset. *)
Lemma C10_witness :
  Forall (fun '(signum, info, s) =>
            exists s' t,
              TryHandleSignal signum info s = (Normal false, s', t) /\
              REG_RIP s' = REG_RIP s)
    [(7, kernel_info, demo_state true 0x1010);
     (SIGSEGV, mk_siginfo SI_USER, demo_state true 0x1010);
     (SIGSEGV, kernel_info, demo_state false 0x1010);
     (SIGSEGV, kernel_info, demo_state true 0x2000);
     (SIGSEGV, kernel_info, demo_state true 0x1020)].
Proof.
  repeat constructor.
  all: match goal with
       | |- exists s' t, TryHandleSignal ?g ?i ?s = _ /\ _ =>
           exists (TryHandleSignal g i s).1.2, (TryHandleSignal g i s).2;
           split; [reflexivity|];
           apply (C10_rip_written_only_when_handled g i s (Normal false)
                    (TryHandleSignal g i s).1.2 (TryHandleSignal g i s).2);
           reflexivity
       end.
Defined.

(** *** The flag and the lock after the handler *)

(** C3: a run that returns true leaves [g_thread_in_wasm_code] false
    (and the lock released); a run that got past the three filters and
    returns false has released the lock, then restored the signal mask,
    then set the flag back to true, in this order, as its last three
    accesses. *)
Theorem C3_flag_after_handling signum info s b s' t :
  TryHandleSignal signum info s = (Normal b, s', t) ->
  (b = true ->
   g_thread_in_wasm_code s' = false /\ metadata_lock_held s' = false) /\
  (b = false -> passes_filters signum info s = true ->
   g_thread_in_wasm_code s' = true /\ metadata_lock_held s' = false /\
   exists t0 s5 s6,
     t = t0 ++ [(EvUnlock, s5); (EvSigmask SIG_SETMASK (blocked s), s6);
                (EvSetThreadInWasm true, s')]).
Proof.
  intros H. split.
  - intros ->. destruct (passes_filters signum info s) eqn:Hp.
    + rewrite (TryHandleSignal_run _ _ _ Hp) in H.
      destruct (find_landing _ _) as [v|]; [|discriminate].
      cbv zeta in H. injection H as <- _. split; reflexivity.
    + rewrite (TryHandleSignal_filtered _ _ _ Hp) in H. discriminate.
  - intros -> Hp. rewrite (TryHandleSignal_run _ _ _ Hp) in H.
    destruct (find_landing _ _) as [v|]; [discriminate|].
    cbv zeta in H. injection H as <- <-.
    split; [reflexivity|]. split; [reflexivity|].
    eexists (prologue s ++ scan_events _ _ _ _), _, _.
    rewrite <- app_assoc. reflexivity.
Qed.

Lemma C3_witness :
  (exists s' t,
     TryHandleSignal SIGSEGV kernel_info (demo_state true 0x1010) =
     (Normal true, s', t) /\
     g_thread_in_wasm_code s' = false /\ metadata_lock_held s' = false) /\
  (exists s' t,
     TryHandleSignal SIGSEGV kernel_info (demo_state true 0x1020) =
     (Normal false, s', t) /\
     passes_filters SIGSEGV kernel_info (demo_state true 0x1020) = true /\
     g_thread_in_wasm_code s' = true /\ metadata_lock_held s' = false).
Proof.
  split.
  - eexists _, _. split; [reflexivity|].
    eapply (C3_flag_after_handling SIGSEGV kernel_info
              (demo_state true 0x1010) true); reflexivity.
  - eexists _, _. split; [reflexivity|]. split; [reflexivity|].
    pose proof (C3_flag_after_handling SIGSEGV kernel_info
                  (demo_state true 0x1020) false _ _ eq_refl) as [_ H].
    destruct (H eq_refl eq_refl) as (Hflag & Hlock & _).
    split; [exact Hflag|exact Hlock].
Defined.

(** *** The blocked-signal set *)

Lemma sigismember_unblock m signum :
  signum <> SIGSEGV ->
  sigismember (Z.ldiff m unmasked) signum = sigismember m signum.
Proof.
  intros H. unfold sigismember, unmasked, sigaddset, sigemptyset, SIGSEGV in *.
  rewrite Z.ldiff_spec. change (Z.lor 0 (Z.shiftl 1 (11 - 1))) with (2 ^ 10).
  rewrite Z.pow2_bits_eqb by lia.
  replace (10 =? signum - 1) with false by (symmetry; apply Z.eqb_neq; lia).
  apply andb_true_r.
Qed.

(** Whatever the guarded block does, mask changes and early return
    included, the mask captured by the constructor is back once control
    has left the block. *)
Lemma SigUnmaskStack_restores {A} sigs (body : M A) s r s' t :
  with_SigUnmaskStack sigs body s = (r, s', t) ->
  (forall c, r <> Crashed c) ->
  blocked s' = blocked s.
Proof.
  unfold with_SigUnmaskStack, SigUnmaskStack_ctor, SigUnmaskStack_dtor,
    pthread_sigmask, at_scope_exit, bind, pure. cbn beta iota zeta.
  destruct (body _) as [[rb sb] tb].
  destruct rb; cbn; intros H Hr; injection H as <- <- <-;
    solve [reflexivity | exfalso; eapply Hr; reflexivity].
Qed.

Lemma handler_trace_mask signum info s b s' t :
  TryHandleSignal signum info s = (Normal b, s', t) ->
  blocked s' = blocked s /\ Forall (fun es => same_mask_but_SIGSEGV s es.2) t.
Proof.
  assert (Hsame : same_mask_but_SIGSEGV s s) by (intros g _; reflexivity).
  assert (Hwin : forall s1, blocked s1 = Z.ldiff (blocked s) unmasked ->
                            same_mask_but_SIGSEGV s s1).
  { intros s1 E g Hg. rewrite E. apply sigismember_unblock. exact Hg. }
  assert (Hend : forall s1, blocked s1 = blocked s -> same_mask_but_SIGSEGV s s1).
  { intros s1 E g _. rewrite E. reflexivity. }
  destruct (passes_filters signum info s) eqn:Hp.
  - rewrite (TryHandleSignal_run _ _ _ Hp).
    destruct (find_landing _ _) as [v|]; cbv zeta; intros H;
      injection H as _ <- <-; (split; [reflexivity|]).
    all: constructor; [apply Hend; reflexivity|].
    all: constructor; [apply Hwin; reflexivity|].
    all: constructor; [apply Hwin; reflexivity|].
    all: apply Forall_app; split;
      [apply (scan_events_all (fun es => same_mask_but_SIGSEGV s es.2));
         intros w; apply Hwin; reflexivity|].
    all: constructor; [apply Hwin; reflexivity|].
    all: repeat (constructor; [apply Hend; reflexivity|]); constructor.
  - rewrite (TryHandleSignal_filtered _ _ _ Hp). intros H.
    injection H as _ <- <-. split; [reflexivity|constructor].
Qed.

(** C4: the scope of [SigUnmaskStack] gives the blocked-signal set back
    as the constructor found it on every way out of the guarded block,
    whatever the block does (fall through, return, raising the signal
    again, changing the mask itself).  So the handler, which always
    returns, returns with the blocked-signal set of fault delivery, bit
    for bit, whether it resolved the fault or declined it; and after
    every access in between, the set differs from it in SIGSEGV at
    most. *)
Theorem C4_sigmask_restored :
  (forall (A : Type) (sigs : sigset_t) (body : M A) s r s' t,
     with_SigUnmaskStack sigs body s = (r, s', t) ->
     (forall c, r <> Crashed c) ->
     blocked s' = blocked s) /\
  (forall signum info s,
     exists b s' t,
       TryHandleSignal signum info s = (Normal b, s', t) /\
       blocked s' = blocked s /\
       (forall n, Z.testbit (blocked s') n = Z.testbit (blocked s) n) /\
       Forall (fun es => same_mask_but_SIGSEGV s es.2) t).
Proof.
  split.
  - intros A sigs body s r s' t. apply SigUnmaskStack_restores.
  - intros signum info s.
    destruct (TryHandleSignal_returns signum info s) as (b & s' & t & H).
    exists b, s', t. split; [exact H|].
    destruct (handler_trace_mask _ _ _ _ _ _ H) as [Hb Ht].
    split; [exact Hb|]. split; [|exact Ht].
    intros n. rewrite Hb. reflexivity.
Qed.

(** A guarded block that raises the signal again and returns, under a
    mask that blocks SIGSEGV and SIGBUS; and a declined fault under the
    same mask. *)
Lemma C4_witness :
  (let s := set_blocked 1088 (demo_state true 0x1020) in
   exists s' t,
     with_SigUnmaskStack unmasked (raise SIGSEGV ;; ret (A := unit) false)%handler s =
     (Returned false, s', t) /\ blocked s' = 1088) /\
  (let s := set_blocked 1088 (demo_state true 0x1020) in
   exists s' t,
     TryHandleSignal SIGSEGV kernel_info s = (Normal false, s', t) /\
     blocked s' = 1088).
Proof.
  split; cbv zeta.
  - eexists _, _. split; [reflexivity|].
    refine (proj1 C4_sigmask_restored unit unmasked
              (raise SIGSEGV ;; ret false)%handler
              (set_blocked 1088 (demo_state true 0x1020)) _ _ _ eq_refl _).
    discriminate.
  - destruct (proj2 C4_sigmask_restored SIGSEGV kernel_info
                (set_blocked 1088 (demo_state true 0x1020)))
      as (b & s' & t & H & Hb & _).
    exists s', t. split; [|exact Hb].
    rewrite H. f_equal. f_equal.
    assert (E : (TryHandleSignal SIGSEGV kernel_info
                   (set_blocked 1088 (demo_state true 0x1020))).1.1 =
                Normal false) by reflexivity.
    rewrite H in E. exact E.
Defined.

(** *** The dispatcher *)

(** The handler leaves the dispositions, the raised signals and the
    registry alone. *)
Lemma TryHandleSignal_frame signum info s r s' t :
  TryHandleSignal signum info s = (r, s', t) ->
  dispositions s' = dispositions s /\ raised s' = raised s /\
  gCodeObjects s' = gCodeObjects s.
Proof.
  destruct (passes_filters signum info s) eqn:Hp.
  - rewrite (TryHandleSignal_run _ _ _ Hp).
    destruct (find_landing _ _); cbv zeta; intros H; injection H as _ <- _;
      repeat split.
  - rewrite (TryHandleSignal_filtered _ _ _ Hp). intros H.
    injection H as _ <- _. repeat split.
Qed.

(** C7: [HandleSignal] runs the handler and then, when it returned
    true, does nothing more: dispositions and raised signals are as
    before.  When it returned false, the default disposition is
    installed for the signal (every other disposition is kept); then,
    for a kernel-generated fault, [HandleSignal] returns at once, and
    for any other origin it raises the same signal on the thread, once,
    after the installation. *)
Theorem C7_dispatcher_fallback signum info s :
  exists b s1 t1 s' t',
    TryHandleSignal signum info s = (Normal b, s1, t1) /\
    HandleSignal signum info s = (Normal tt, s', t1 ++ t') /\
    if b then
      s' = s1 /\ t' = [] /\
      dispositions s' = dispositions s /\ raised s' = raised s
    else
      exists s2,
        dispositions s2 = <[signum := default_action]> (dispositions s) /\
        raised s2 = raised s /\
        if IsKernelGeneratedSignal info then
          s' = s2 /\ t' = [(EvSigaction signum default_action, s2)]
        else
          dispositions s' = dispositions s2 /\
          raised s' = raised s ++ [signum] /\
          t' = [(EvSigaction signum default_action, s2);
                (EvRaise signum, s')].
Proof.
  destruct (TryHandleSignal_returns signum info s) as (b & s1 & t1 & H).
  destruct (TryHandleSignal_frame _ _ _ _ _ _ H) as (Hd & Hr & _).
  unfold HandleSignal, bind. rewrite H.
  destruct b; cbn [negb].
  - exists true, s1, t1, s1, []. unfold pure. repeat split; assumption.
  - unfold sigaction, raise, step, pure. fold default_action.
    destruct (IsKernelGeneratedSignal info); cbn [negb].
    + eexists false, s1, t1, _, _. split; [reflexivity|].
      split; [reflexivity|].
      exists (set_disposition signum default_action s1).
      simpl. rewrite Hd, Hr. repeat split.
    + eexists false, s1, t1, _, _. split; [reflexivity|].
      split; [reflexivity|].
      exists (set_disposition signum default_action s1).
      simpl. rewrite Hd, Hr. repeat split.
Qed.

(** *** The lock and the flag *)

Lemma lock_discipline_quiet t : forall prev,
  Forall quiet t -> lock_discipline prev t.
Proof.
  induction t as [|[e s1] rest IH]; intros prev H; simpl; [exact I|].
  apply Forall_cons in H as [[Hne Hinv] Hrest]. simpl in *.
  split; [intros E; contradiction|]. split; [exact Hinv|].
  apply IH. exact Hrest.
Qed.

Lemma lock_discipline_app t1 t2 : forall prev,
  lock_discipline prev t1 -> Forall quiet t2 -> lock_discipline prev (t1 ++ t2).
Proof.
  induction t1 as [|[e s1] rest IH]; intros prev H1 H2; simpl.
  - apply lock_discipline_quiet. exact H2.
  - simpl in H1. destruct H1 as (Hl & Hinv & Hrest).
    split; [exact Hl|]. split; [exact Hinv|]. apply IH; assumption.
Qed.

Lemma handler_lock_discipline signum info s b s' t :
  lock_inv s ->
  TryHandleSignal signum info s = (Normal b, s', t) ->
  lock_discipline s t /\ lock_inv s'.
Proof.
  intros Hinv.
  assert (Hfree : forall s1, metadata_lock_held s1 = false -> lock_inv s1).
  { intros s1 E. unfold lock_inv. rewrite E. discriminate. }
  assert (Hclear : forall s1, g_thread_in_wasm_code s1 = false -> lock_inv s1).
  { intros s1 E _. exact E. }
  destruct (passes_filters signum info s) eqn:Hp.
  - rewrite (TryHandleSignal_run _ _ _ Hp).
    destruct (find_landing _ _) as [v|]; cbv zeta; intros H;
      injection H as _ <- <-.
    all: split; [|first [apply Hclear; reflexivity | apply Hfree; reflexivity]].
    all: split; [discriminate|]; split; [apply Hclear; reflexivity|].
    all: split; [discriminate|]; split; [apply Hclear; reflexivity|].
    all: split; [reflexivity|]; split; [apply Hclear; reflexivity|].
    all: apply lock_discipline_quiet, Forall_app; split.
    all: try (apply scan_events_all; intros w;
              (split; [discriminate | apply Hclear; reflexivity])).
    all: repeat (constructor;
                 [split; [discriminate
                         |first [apply Hclear; reflexivity
                                |apply Hfree; reflexivity]]|]).
    all: constructor.
  - rewrite (TryHandleSignal_filtered _ _ _ Hp). intros H.
    injection H as _ <- <-. split; [exact I|exact Hinv].
Qed.

(** C8: from a state in which the invariant holds, the whole handling
    path, [HandleSignal] with the handler inside, returns (the assertion
    of the lock never ends the process), takes the lock only in a state
    whose flag is false, and keeps the flag false while the lock is
    held: after every access, and when it returns. *)
Theorem C8_lock_only_with_flag_clear signum info s :
  lock_inv s ->
  exists s' t,
    HandleSignal signum info s = (Normal tt, s', t) /\
    lock_discipline s t /\ lock_inv s'.
Proof.
  intros Hinv.
  destruct (TryHandleSignal_returns signum info s) as (b & s1 & t1 & H).
  destruct (handler_lock_discipline _ _ _ _ _ _ Hinv H) as [Ht Hs1].
  unfold HandleSignal, bind, sigaction, raise, step, pure. rewrite H.
  destruct b; cbn [negb].
  - eexists _, _. split; [reflexivity|].
    rewrite app_nil_r. split; assumption.
  - destruct (IsKernelGeneratedSignal info); cbn [negb];
      (eexists _, _; split; [reflexivity|]);
      (split; [|exact Hs1]);
      apply lock_discipline_app; try exact Ht;
      repeat (constructor; [split; [discriminate|exact Hs1]|]);
      constructor.
Qed.

Lemma C8_witness :
  lock_inv (demo_state true 0x1010) /\
  exists s' t,
    HandleSignal SIGSEGV kernel_info (demo_state true 0x1010) =
    (Normal tt, s', t) /\
    lock_discipline (demo_state true 0x1010) t /\ lock_inv s'.
Proof.
  split; [discriminate|].
  apply C8_lock_only_with_flag_clear. discriminate.
Defined.

(** *** Tombstoned slots *)

Lemma find_landing_live a objs :
  find_landing a (List.filter is_live objs) = find_landing a objs.
Proof.
  induction objs as [|e rest IH]; [reflexivity|].
  cbn [List.filter find_landing]. unfold is_live at 1.
  destruct (code_info e) as [d|] eqn:Ed.
  - cbn [find_landing]. rewrite Ed, IH. reflexivity.
  - exact IH.
Qed.

(** C9: whatever mix of live and tombstoned slots the registry holds,
    the handler returns (no null pointer is dereferenced), every slot
    it dereferences is a live one, so a tombstoned slot is loaded at
    most and never dereferenced, and the tombstoned slots have no
    effect: without them in the registry the handler returns the same
    answer and leaves the same state. *)
Theorem C9_tombstones_skipped signum info s :
  exists b s' t,
    TryHandleSignal signum info s = (Normal b, s', t) /\
    (forall i s1, (EvDeref i, s1) ∈ t ->
       exists e d, gCodeObjects s !! i = Some e /\ code_info e = Some d) /\
    (forall i e s1, gCodeObjects s !! i = Some e -> code_info e = None ->
       (EvDeref i, s1) ∉ t) /\
    exists t2,
      TryHandleSignal signum info (without_tombstones s) =
      (Normal b, without_tombstones s', t2).
Proof.
  assert (Hlive : forall t : Trace,
    (forall i s1, (EvDeref i, s1) ∈ t ->
       exists e d, gCodeObjects s !! i = Some e /\ code_info e = Some d) ->
    forall i e s1, gCodeObjects s !! i = Some e -> code_info e = None ->
       (EvDeref i, s1) ∉ t).
  { intros t H i e s1 Hi He Hin.
    destruct (H i s1 Hin) as (e' & d & Hi' & Hd). congruence. }
  destruct (passes_filters signum info s) eqn:Hp.
  - assert (Hp' : passes_filters signum info (without_tombstones s) = true)
      by exact Hp.
    rewrite (TryHandleSignal_run _ _ _ Hp), (TryHandleSignal_run _ _ _ Hp').
    assert (Hderef : forall (t0 t1 : Trace) i s1,
      Forall (fun es => forall j, es.1 <> EvDeref j) t0 ->
      Forall (fun es => forall j, es.1 <> EvDeref j) t1 ->
      (EvDeref i, s1) ∈
        t0 ++ scan_events (wrap64 (REG_RIP s)) 0 (gCodeObjects s)
                (scan_state s) ++ t1 ->
      exists e d, gCodeObjects s !! i = Some e /\ code_info e = Some d).
    { intros t0 t1 i s1 H0 H1 Hin.
      rewrite Forall_forall in H0, H1.
      apply elem_of_app in Hin as [Hin|Hin];
        [exfalso; exact (H0 _ Hin i eq_refl)|].
      apply elem_of_app in Hin as [Hin|Hin];
        [|exfalso; exact (H1 _ Hin i eq_refl)].
      apply scan_events_deref in Hin as [_ Hin].
      rewrite Nat.sub_0_r in Hin. exact Hin. }
    change (gCodeObjects (without_tombstones s))
      with (List.filter is_live (gCodeObjects s)).
    change (REG_RIP (without_tombstones s)) with (REG_RIP s).
    rewrite find_landing_live.
    destruct (find_landing _ _) as [v|]; cbv zeta.
    + eexists true, _, _. split; [reflexivity|].
      assert (forall i s1, (EvDeref i, s1) ∈
                prologue s ++ scan_events (wrap64 (REG_RIP s)) 0
                  (gCodeObjects s) (scan_state s) ++
                [(EvUnlock, set_metadata_lock_held false
                              (set_REG_RIP v (scan_state s)));
                 (EvSigmask SIG_SETMASK (blocked s),
                  set_blocked (blocked s)
                    (set_metadata_lock_held false
                       (set_REG_RIP v (scan_state s))))] ->
              exists e d, gCodeObjects s !! i = Some e /\ code_info e = Some d)
        as Hd.
      { intros i s1. apply Hderef; repeat constructor; discriminate. }
      split; [exact Hd|]. split; [apply Hlive; exact Hd|].
      eexists. reflexivity.
    + eexists false, _, _. split; [reflexivity|].
      assert (forall i s1, (EvDeref i, s1) ∈
                prologue s ++ scan_events (wrap64 (REG_RIP s)) 0
                  (gCodeObjects s) (scan_state s) ++
                [(EvUnlock, set_metadata_lock_held false (scan_state s));
                 (EvSigmask SIG_SETMASK (blocked s),
                  set_blocked (blocked s)
                    (set_metadata_lock_held false (scan_state s)));
                 (EvSetThreadInWasm true,
                  set_thread_in_wasm_code true
                    (set_blocked (blocked s)
                       (set_metadata_lock_held false (scan_state s))))] ->
              exists e d, gCodeObjects s !! i = Some e /\ code_info e = Some d)
        as Hd.
      { intros i s1. apply Hderef; repeat constructor; discriminate. }
      split; [exact Hd|]. split; [apply Hlive; exact Hd|].
      eexists. reflexivity.
  - assert (Hp' : passes_filters signum info (without_tombstones s) = false)
      by exact Hp.
    rewrite (TryHandleSignal_filtered _ _ _ Hp),
      (TryHandleSignal_filtered _ _ _ Hp').
    exists false, s, []. split; [reflexivity|].
    split; [intros i s1 Hin; apply elem_of_nil in Hin; contradiction|].
    split; [intros i e s1 _ _ Hin; apply elem_of_nil in Hin; contradiction|].
    eexists. reflexivity.
Qed.

(** *** Addresses of protected instructions and of landing pads *)

Lemma wrap64_range z : 0 <= wrap64 z < 2 ^ 64.
Proof. unfold wrap64. apply Z.mod_pos_bound. reflexivity. Qed.

Lemma fault_offset_instr_addr d ins :
  is_intptr (instr_offset ins) = true ->
  fault_offset d (instr_addr d ins) = instr_offset ins.
Proof.
  unfold is_intptr, fault_offset, instr_addr, sext64, wrap64.
  intros H. apply andb_prop in H as [Hlo Hhi].
  apply Z.leb_le in Hlo. apply Z.ltb_lt in Hhi.
  change (2 ^ 64) with 18446744073709551616 in *.
  change (2 ^ 63) with 9223372036854775808 in *.
  Z.div_mod_to_equations. lia.
Qed.

Lemma offset_match_addr d a ins :
  0 <= a < 2 ^ 64 ->
  instr_offset ins = fault_offset d a ->
  instr_addr d ins = a.
Proof.
  unfold fault_offset, instr_addr, sext64, wrap64. intros Ha ->.
  change (2 ^ 64) with 18446744073709551616 in *.
  change (2 ^ 63) with 9223372036854775808 in *.
  Z.div_mod_to_equations. lia.
Qed.

Lemma landing_in_outside d a : in_code_range d a = false -> landing_in d a = None.
Proof. unfold landing_in. intros ->. reflexivity. Qed.

Lemma landing_in_unprotected d a :
  0 <= a < 2 ^ 64 ->
  (forall ins, ins ∈ instructions d -> instr_addr d ins <> a) ->
  landing_in d a = None.
Proof.
  intros Ha H. unfold landing_in.
  destruct (in_code_range d a); [|reflexivity].
  destruct (list_find _ _) as [[j ins]|] eqn:E; [|reflexivity].
  apply list_find_Some in E as (Hj & Hm & _).
  exfalso. apply (H ins).
  - eapply list_elem_of_lookup_2. exact Hj.
  - apply offset_match_addr; [exact Ha|exact Hm].
Qed.

Lemma landing_in_protected d ins j :
  in_code_range d (instr_addr d ins) = true ->
  is_intptr (instr_offset ins) = true ->
  list_find (matches_offset (instr_offset ins)) (instructions d) = Some (j, ins) ->
  landing_in d (instr_addr d ins) = Some (landing_addr d ins).
Proof.
  intros Hr Ht Hf. unfold landing_in, landing_addr.
  rewrite Hr, (fault_offset_instr_addr d ins Ht), Hf.
  rewrite Z.add_comm. reflexivity.
Qed.

Lemma find_landing_None a objs :
  (forall e d, e ∈ objs -> code_info e = Some d -> landing_in d a = None) ->
  find_landing a objs = None.
Proof.
  induction objs as [|e rest IH]; intros H; [reflexivity|]. simpl.
  destruct (code_info e) as [d|] eqn:Ed.
  - rewrite (H e d); [|apply list_elem_of_here|exact Ed].
    apply IH. intros e' d' Hin. apply H. apply list_elem_of_further. exact Hin.
  - apply IH. intros e' d' Hin. apply H. apply list_elem_of_further. exact Hin.
Qed.

Lemma find_landing_Some a v objs : forall k e d,
  objs !! k = Some e -> code_info e = Some d -> landing_in d a = Some v ->
  (forall j e' d', (j < k)%nat -> objs !! j = Some e' ->
                   code_info e' = Some d' -> landing_in d' a = None) ->
  find_landing a objs = Some v.
Proof.
  induction objs as [|e0 rest IH]; intros k e d Hk He Hl Hbefore.
  - discriminate.
  - destruct k as [|k]; simpl in Hk |- *.
    + injection Hk as ->. rewrite He, Hl. reflexivity.
    + destruct (code_info e0) as [d0|] eqn:E0.
      * rewrite (Hbefore 0%nat e0 d0); [|lia|reflexivity|exact E0].
        apply (IH k e d Hk He Hl). intros j e' d' Hj.
        apply (Hbefore (S j)). lia.
      * apply (IH k e d Hk He Hl). intros j e' d' Hj.
        apply (Hbefore (S j)). lia.
Qed.

(** *** Disjoint ranges *)

Lemma common_address_overlap d1 d2 a :
  in_code_range d1 a = true -> in_code_range d2 a = true ->
  ranges_overlap d1 d2 = true.
Proof.
  unfold in_code_range, ranges_overlap, range_end. intros H1 H2.
  apply andb_prop in H1 as [L1 U1]. apply andb_prop in H2 as [L2 U2].
  apply Z.leb_le in L1, L2. apply Z.ltb_lt in U1, U2.
  apply Z.ltb_lt. lia.
Qed.

Lemma registry_disjoint_later objs : forall i j e1 e2 d1 d2 a,
  registry_disjoint objs = true -> (i < j)%nat ->
  objs !! i = Some e1 -> objs !! j = Some e2 ->
  code_info e1 = Some d1 -> code_info e2 = Some d2 ->
  in_code_range d1 a = true -> in_code_range d2 a = true -> False.
Proof.
  induction objs as [|e rest IH]; intros i j e1 e2 d1 d2 a H Hij Hi Hj E1 E2 R1 R2.
  - discriminate.
  - simpl in H. apply andb_prop in H as [Hhead Hrest].
    destruct j as [|j]; [lia|]. simpl in Hj.
    destruct i as [|i]; simpl in Hi.
    + injection Hi as ->.
      rewrite forallb_forall in Hhead.
      assert (Hin : In e2 rest).
      { apply list_elem_of_In. eapply list_elem_of_lookup_2. exact Hj. }
      specialize (Hhead e2 Hin). unfold entries_overlap in Hhead.
      rewrite E1, E2, (common_address_overlap d1 d2 a R1 R2) in Hhead.
      discriminate.
    + apply (IH i j e1 e2 d1 d2 a Hrest); [lia|assumption..].
Qed.

Lemma registry_disjoint_lookup objs i j e1 e2 d1 d2 a :
  registry_disjoint objs = true -> i <> j ->
  objs !! i = Some e1 -> objs !! j = Some e2 ->
  code_info e1 = Some d1 -> code_info e2 = Some d2 ->
  in_code_range d1 a = true -> in_code_range d2 a = true -> False.
Proof.
  intros H Hij Hi Hj E1 E2 R1 R2.
  destruct (Nat.lt_ge_cases i j) as [Hlt|Hge].
  - exact (registry_disjoint_later objs i j e1 e2 d1 d2 a H Hlt Hi Hj E1 E2 R1 R2).
  - assert (Hlt : (j < i)%nat) by lia.
    exact (registry_disjoint_later objs j i e2 e1 d2 d1 a H Hlt Hj Hi E2 E1 R2 R1).
Qed.

(** *** Resolution *)

Lemma filters_pass signum info s :
  signum = SIGSEGV -> IsKernelGeneratedSignal info = true ->
  g_thread_in_wasm_code s = true ->
  passes_filters signum info s = true.
Proof.
  intros -> Hk Hf. unfold passes_filters. rewrite Hk, Hf. reflexivity.
Qed.

(** A fault that passes the filters and is at no protected instruction
    of any live range that contains it is declined. *)
Lemma unmatched_fault_declined signum info s :
  passes_filters signum info s = true ->
  (forall e d, e ∈ gCodeObjects s -> code_info e = Some d ->
     in_code_range d (fault_address s) = true ->
     forall ins, ins ∈ instructions d -> instr_addr d ins <> fault_address s) ->
  exists s' t, TryHandleSignal signum info s = (Normal false, s', t).
Proof.
  intros Hp H. rewrite (TryHandleSignal_run _ _ _ Hp).
  fold (fault_address s). rewrite find_landing_None; [cbv zeta; eauto|].
  intros e d Hin Hd.
  destruct (in_code_range d (fault_address s)) eqn:Hr.
  - apply landing_in_unprotected; [apply wrap64_range|].
    apply (H e d Hin Hd Hr).
  - apply landing_in_outside. exact Hr.
Qed.

(** C2: with pairwise disjoint live ranges, a kernel-generated SIGSEGV
    delivered to a thread whose flag is true is declined when its
    address lies in a live range none of whose protected instructions
    is at that address, and when it lies in no live range at all. *)
Theorem C2_unmatched_fault_declined signum info s :
  signum = SIGSEGV -> IsKernelGeneratedSignal info = true ->
  g_thread_in_wasm_code s = true ->
  registry_disjoint (gCodeObjects s) = true ->
  (exists i e d,
     gCodeObjects s !! i = Some e /\ code_info e = Some d /\
     in_code_range d (fault_address s) = true /\
     forall ins, ins ∈ instructions d -> instr_addr d ins <> fault_address s) \/
  (forall i e d,
     gCodeObjects s !! i = Some e -> code_info e = Some d ->
     in_code_range d (fault_address s) = false) ->
  exists s' t, TryHandleSignal signum info s = (Normal false, s', t).
Proof.
  intros Hs Hk Hf Hdisj Hcase.
  apply unmatched_fault_declined; [apply filters_pass; assumption|].
  intros e d Hin Hd Hr.
  apply list_elem_of_lookup_1 in Hin as [j Hj].
  destruct Hcase as [(i & e0 & d0 & Hi & Hd0 & Hr0 & Hnone)|Hout].
  - destruct (decide (i = j)) as [->|Hne].
    + assert (d0 = d) as -> by congruence. exact Hnone.
    + exfalso.
      exact (registry_disjoint_lookup _ i j e0 e d0 d _ Hdisj Hne Hi Hj Hd0 Hd Hr0 Hr).
  - rewrite (Hout j e d Hj Hd) in Hr. discriminate.
Qed.

(** The range [[0x1000, 0x1100)] with the protected instruction
    [0x10 -> 0x50]: a fault at [0x1020], inside the range at an
    unprotected offset, and a fault at [0x2000], outside it. *)
Lemma C2_witness :
  (exists s' t,
     TryHandleSignal SIGSEGV kernel_info (demo_state true 0x1020) =
     (Normal false, s', t)) /\
  (exists s' t,
     TryHandleSignal SIGSEGV kernel_info (demo_state true 0x2000) =
     (Normal false, s', t)).
Proof.
  split.
  - apply C2_unmatched_fault_declined; try reflexivity.
    left. exists 1%nat, (mk_entry (Some demo_info)), demo_info.
    repeat split.
    intros ins Hin. apply list_elem_of_singleton in Hin as ->.
    vm_compute. discriminate.
  - apply C2_unmatched_fault_declined; try reflexivity.
    right. intros [|[|i]] e d Hi Hd.
    + injection Hi as <-. discriminate.
    + injection Hi as <-. injection Hd as <-. reflexivity.
    + discriminate.
Defined.

(** C1, with the conditions under which the scan reaches the entry:
    let [R] be a live code object of a registry with
    pairwise disjoint live ranges, and [ins] the first entry of its
    table that has its [instr_offset], a signed 64-bit value, with the
    instruction's address inside the range of [R] as the handler tests
    it.  A kernel-generated SIGSEGV at that address, delivered while
    the flag is true, is resolved: the handler returns true and the
    saved instruction pointer is the base of [R] plus the
    [landing_offset] of [ins]. *)
Theorem C1_protected_fault_resolved signum info s k e R j ins :
  signum = SIGSEGV -> IsKernelGeneratedSignal info = true ->
  g_thread_in_wasm_code s = true ->
  registry_disjoint (gCodeObjects s) = true ->
  gCodeObjects s !! k = Some e -> code_info e = Some R ->
  list_find (matches_offset (instr_offset ins)) (instructions R) = Some (j, ins) ->
  is_intptr (instr_offset ins) = true ->
  in_code_range R (instr_addr R ins) = true ->
  fault_address s = instr_addr R ins ->
  exists s' t,
    TryHandleSignal signum info s = (Normal true, s', t) /\
    REG_RIP s' = landing_addr R ins.
Proof.
  intros Hs Hk Hf Hdisj Hslot HR Hfirst Hint Hrange Haddr.
  rewrite (TryHandleSignal_run _ _ _ (filters_pass _ _ _ Hs Hk Hf)).
  fold (fault_address s). rewrite Haddr.
  rewrite (find_landing_Some _ (landing_addr R ins) _ k e R Hslot HR).
  - cbv zeta. eexists _, _. split; reflexivity.
  - eapply landing_in_protected; eassumption.
  - intros i e' d' Hlt Hi Hd'.
    apply landing_in_outside.
    destruct (in_code_range d' (instr_addr R ins)) eqn:Hr; [|reflexivity].
    exfalso.
    assert (Hne : i <> k) by lia.
    exact (registry_disjoint_lookup _ i k e' e d' R _ Hdisj Hne Hi Hslot Hd' HR Hr Hrange).
Qed.

(** The range [[0x1000, 0x1100)] with the protected instruction
    [0x10 -> 0x50] and a fault at [0x1010]: the saved instruction
    pointer becomes [0x1050]. *)
Lemma C1_witness :
  exists s' t,
    TryHandleSignal SIGSEGV kernel_info (demo_state true 0x1010) =
    (Normal true, s', t) /\
    REG_RIP s' = 0x1050.
Proof.
  apply (C1_protected_fault_resolved SIGSEGV kernel_info
           (demo_state true 0x1010) 1%nat (mk_entry (Some demo_info))
           demo_info 0%nat (mk_instr 0x10 0x50)); reflexivity.
Defined.

(** C1 as stated fails twice.  With two entries for the same
    [instr_offset] the first one wins: for the entry [0x10 -> 0x60] of
    the table [[0x10 -> 0x50; 0x10 -> 0x60]] a fault at [0x1010]
    resumes at [0x1050], not at [0x1060].  And an entry whose offset
    lies outside the range is never matched: with [0x200 -> 0x50] in
    the table of the range [[0x1000, 0x1100)], a fault at [0x1200] is
    declined. *)
Lemma C1_counterexample :
  (let R := mk_info 0x1000 0x100 [mk_instr 0x10 0x50; mk_instr 0x10 0x60] in
   let s := mk_state true 0 false 0x1010 [mk_entry (Some R)] ∅ [] in
   registry_disjoint (gCodeObjects s) = true /\
   gCodeObjects s !! 0%nat = Some (mk_entry (Some R)) /\
   mk_instr 0x10 0x60 ∈ instructions R /\
   REG_RIP s = base R + 0x10 /\
   exists s' t,
     TryHandleSignal SIGSEGV kernel_info s = (Normal true, s', t) /\
     REG_RIP s' = 0x1050 /\ REG_RIP s' <> base R + 0x60) /\
  (let R := mk_info 0x1000 0x100 [mk_instr 0x200 0x50] in
   let s := mk_state true 0 false 0x1200 [mk_entry (Some R)] ∅ [] in
   registry_disjoint (gCodeObjects s) = true /\
   gCodeObjects s !! 0%nat = Some (mk_entry (Some R)) /\
   mk_instr 0x200 0x50 ∈ instructions R /\
   REG_RIP s = base R + 0x200 /\
   exists s' t,
     TryHandleSignal SIGSEGV kernel_info s = (Normal false, s', t) /\
     REG_RIP s' = 0x1200).
Proof.
  split; cbv zeta.
  - split; [reflexivity|]. split; [reflexivity|].
    split; [apply list_elem_of_further, list_elem_of_here|].
    split; [reflexivity|].
    eexists _, _. split; [reflexivity|]. split; [reflexivity|].
    vm_compute. discriminate.
  - split; [reflexivity|]. split; [reflexivity|].
    split; [apply list_elem_of_here|]. split; [reflexivity|].
    eexists _, _. split; reflexivity.
Qed.

(** * Runs of the handler on the example registry *)

(** A fault at the protected instruction: the accesses in program
    order. *)
Example resolved_run_accesses :
  map fst (TryHandleSignal SIGSEGV kernel_info (demo_state true 0x1010)).2 =
  [EvSetThreadInWasm false; EvSigmask SIG_UNBLOCK 1024; EvLock;
   EvLoadSlot 0; EvLoadSlot 1; EvDeref 1; EvWriteRip 0x1050;
   EvUnlock; EvSigmask SIG_SETMASK 0].
Proof. reflexivity. Qed.

(** A fault at an unprotected offset of the range: the handler declines
    and the dispatcher installs the default disposition. *)
Example declined_run_accesses :
  let '(r, s', t) := HandleSignal SIGSEGV kernel_info (demo_state true 0x1020) in
  r = Normal tt /\
  REG_RIP s' = 0x1020 /\
  g_thread_in_wasm_code s' = true /\
  dispositions s' !! SIGSEGV = Some default_action /\
  raised s' = [] /\
  map fst t =
  [EvSetThreadInWasm false; EvSigmask SIG_UNBLOCK 1024; EvLock;
   EvLoadSlot 0; EvLoadSlot 1; EvDeref 1;
   EvUnlock; EvSigmask SIG_SETMASK 0; EvSetThreadInWasm true;
   EvSigaction SIGSEGV default_action].
Proof. repeat split. Qed.

(** A SIGSEGV sent by [kill]: declined, default disposition installed,
    signal raised again. *)
Example user_signal_run_accesses :
  let '(r, s', t) :=
    HandleSignal SIGSEGV (mk_siginfo SI_USER) (demo_state true 0x1010) in
  r = Normal tt /\
  REG_RIP s' = 0x1010 /\
  dispositions s' !! SIGSEGV = Some default_action /\
  raised s' = [SIGSEGV] /\
  map fst t = [EvSigaction SIGSEGV default_action; EvRaise SIGSEGV].
Proof. repeat split. Qed.

(** * Further properties of the handler *)

(** *** What a match is *)

Lemma find_landing_inv a v objs :
  find_landing a objs = Some v ->
  exists k e d j ins,
    objs !! k = Some e /\ code_info e = Some d /\
    in_code_range d a = true /\
    list_find (matches_offset (fault_offset d a)) (instructions d) = Some (j, ins) /\
    v = wrap64 (landing_offset ins + base d) /\
    (forall i e' d', (i < k)%nat -> objs !! i = Some e' ->
       code_info e' = Some d' -> landing_in d' a = None).
Proof.
  induction objs as [|e0 rest IH]; intros H; [discriminate|].
  simpl in H.
  assert (Hrest : find_landing a rest = Some v ->
                  (forall d0, code_info e0 = Some d0 -> landing_in d0 a = None) ->
                  exists k e d j ins,
                    (e0 :: rest) !! k = Some e /\ code_info e = Some d /\
                    in_code_range d a = true /\
                    list_find (matches_offset (fault_offset d a)) (instructions d)
                      = Some (j, ins) /\
                    v = wrap64 (landing_offset ins + base d) /\
                    (forall i e' d', (i < k)%nat -> (e0 :: rest) !! i = Some e' ->
                       code_info e' = Some d' -> landing_in d' a = None)).
  { intros Hf H0. destruct (IH Hf) as (k & e & d & j & ins & Hk & He & Hr & Hl & Hv & Hb).
    exists (S k), e, d, j, ins. repeat split; try assumption.
    intros [|i] e' d' Hlt Hi Hd'; simpl in Hi.
    - injection Hi as <-. apply H0. exact Hd'.
    - apply (Hb i e' d'); [lia|assumption..]. }
  destruct (code_info e0) as [d0|] eqn:E0.
  - destruct (landing_in d0 a) as [w|] eqn:El.
    + injection H as ->. unfold landing_in in El.
      destruct (in_code_range d0 a) eqn:Hr; [|discriminate].
      destruct (list_find _ _) as [[j ins]|] eqn:Hl; [|discriminate].
      injection El as <-.
      exists 0%nat, e0, d0, j, ins. repeat split; try assumption.
      intros i e' d' Hlt. lia.
    + apply Hrest; [exact H|]. intros d1 E. injection E as <-. exact El.
  - apply Hrest; [exact H|]. intros d1 E. discriminate.
Qed.

Lemma passes_filters_inv signum info s :
  passes_filters signum info s = true ->
  signum = SIGSEGV /\ IsKernelGeneratedSignal info = true /\
  g_thread_in_wasm_code s = true.
Proof.
  unfold passes_filters. intros H.
  apply andb_prop in H as [H Hf]. apply andb_prop in H as [Hs Hk].
  apply Z.eqb_eq in Hs. repeat split; assumption.
Qed.

Lemma handled_inv signum info s s' t :
  TryHandleSignal signum info s = (Normal true, s', t) ->
  passes_filters signum info s = true /\
  exists v, find_landing (fault_address s) (gCodeObjects s) = Some v /\
            s' = set_blocked (blocked s)
                   (set_metadata_lock_held false (set_REG_RIP v (scan_state s))).
Proof.
  destruct (passes_filters signum info s) eqn:Hp.
  - rewrite (TryHandleSignal_run _ _ _ Hp). fold (fault_address s).
    destruct (find_landing _ _) as [v|]; cbv zeta; intros H; [|discriminate].
    injection H as <- _. split; [reflexivity|]. exists v. split; reflexivity.
  - rewrite (TryHandleSignal_filtered _ _ _ Hp). discriminate.
Qed.

(** X1: the handler answers true only for a kernel-generated SIGSEGV
    of a thread whose flag is true, whose address is inside a live range
    of the registry and is the address of a protected instruction of
    that range; the saved instruction pointer is then the landing pad
    of that instruction. *)
Theorem X1_handled_only_at_protected_instruction signum info s s' t :
  TryHandleSignal signum info s = (Normal true, s', t) ->
  signum = SIGSEGV /\ IsKernelGeneratedSignal info = true /\
  g_thread_in_wasm_code s = true /\
  exists k e d ins,
    gCodeObjects s !! k = Some e /\ code_info e = Some d /\
    in_code_range d (fault_address s) = true /\
    ins ∈ instructions d /\
    instr_addr d ins = fault_address s /\
    REG_RIP s' = landing_addr d ins.
Proof.
  intros H. apply handled_inv in H as (Hp & v & Hf & ->).
  destruct (passes_filters_inv _ _ _ Hp) as (Hs & Hk & Hflag).
  split; [exact Hs|]. split; [exact Hk|]. split; [exact Hflag|].
  apply find_landing_inv in Hf
    as (k & e & d & j & ins & Hslot & Hd & Hr & Hl & -> & _).
  apply list_find_Some in Hl as (Hj & Hm & _).
  exists k, e, d, ins. repeat split; try assumption.
  - eapply list_elem_of_lookup_2. exact Hj.
  - apply offset_match_addr; [apply wrap64_range|exact Hm].
  - simpl. unfold landing_addr. rewrite Z.add_comm. reflexivity.
Qed.

Lemma X1_witness :
  exists k e d ins,
    gCodeObjects (demo_state true 0x1010) !! k = Some e /\
    code_info e = Some d /\
    ins ∈ instructions d /\
    instr_addr d ins = 0x1010 /\
    REG_RIP (TryHandleSignal SIGSEGV kernel_info (demo_state true 0x1010)).1.2 =
    landing_addr d ins.
Proof.
  destruct (X1_handled_only_at_protected_instruction SIGSEGV kernel_info
              (demo_state true 0x1010) _ _ eq_refl)
    as (_ & _ & _ & k & e & d & ins & Hk & He & _ & Hin & Ha & Hrip).
  exists k, e, d, ins. repeat split; assumption.
Defined.

(** X2: disjointness is not what the scan relies on.  It goes on after
    a range that contains the address but has no protected instruction
    there, so a fault is resolved by the first slot, in index order,
    that has one: if no earlier live slot has a protected instruction
    at the address inside its range, the fault is resolved to the
    landing pad of the first matching entry of slot [k], overlapping
    ranges or not. *)
Theorem X2_first_matching_slot_wins signum info s k e R j ins :
  signum = SIGSEGV -> IsKernelGeneratedSignal info = true ->
  g_thread_in_wasm_code s = true ->
  gCodeObjects s !! k = Some e -> code_info e = Some R ->
  list_find (matches_offset (instr_offset ins)) (instructions R) = Some (j, ins) ->
  is_intptr (instr_offset ins) = true ->
  in_code_range R (instr_addr R ins) = true ->
  fault_address s = instr_addr R ins ->
  (forall i e' d', (i < k)%nat -> gCodeObjects s !! i = Some e' ->
     code_info e' = Some d' ->
     in_code_range d' (fault_address s) = false \/
     forall q, q ∈ instructions d' -> instr_addr d' q <> fault_address s) ->
  exists s' t,
    TryHandleSignal signum info s = (Normal true, s', t) /\
    REG_RIP s' = landing_addr R ins.
Proof.
  intros Hs Hk Hf Hslot HR Hfirst Hint Hrange Haddr Hbefore.
  rewrite (TryHandleSignal_run _ _ _ (filters_pass _ _ _ Hs Hk Hf)).
  fold (fault_address s).
  rewrite (find_landing_Some _ (landing_addr R ins) _ k e R Hslot HR).
  - cbv zeta. eexists _, _. split; reflexivity.
  - rewrite Haddr. eapply landing_in_protected; eassumption.
  - intros i e' d' Hlt Hi Hd'.
    destruct (Hbefore i e' d' Hlt Hi Hd') as [Hout|Hnone].
    + apply landing_in_outside. exact Hout.
    + apply landing_in_unprotected; [apply wrap64_range|exact Hnone].
Qed.

(** Two slots with the same range, the first without a protected
    instruction at [0x1010]. *)
Lemma X2_witness :
  let R0 := mk_info 0x1000 0x100 [mk_instr 0x20 0x30] in
  let s := mk_state true 0 false 0x1010
             [mk_entry (Some R0); mk_entry (Some demo_info)] ∅ [] in
  registry_disjoint (gCodeObjects s) = false /\
  exists s' t,
    TryHandleSignal SIGSEGV kernel_info s = (Normal true, s', t) /\
    REG_RIP s' = 0x1050.
Proof.
  cbv zeta. split; [reflexivity|].
  apply (X2_first_matching_slot_wins SIGSEGV kernel_info _ 1%nat
           (mk_entry (Some demo_info)) demo_info 0%nat (mk_instr 0x10 0x50));
    try reflexivity.
  intros [|i] e' d' Hlt Hi Hd'; [|lia].
  injection Hi as <-. injection Hd' as <-. right.
  intros q Hq. apply list_elem_of_singleton in Hq as ->.
  vm_compute. discriminate.
Defined.

(** *** Nested faults and the unmask window *)

Lemma sigismember_unblocked m : sigismember (Z.ldiff m unmasked) SIGSEGV = false.
Proof.
  unfold sigismember, unmasked, sigaddset, sigemptyset, SIGSEGV.
  rewrite Z.ldiff_spec. change (Z.lor 0 (Z.shiftl 1 (11 - 1))) with (2 ^ 10).
  rewrite Z.pow2_bits_eqb by lia. apply andb_false_r.
Qed.

(** Every state a run goes through satisfies [P] when the states of the
    three phases do: before the mask is changed, inside the window, and
    after the mask is back. *)
Lemma handler_trace_phases (P : Event * State -> Prop) signum info s b s' t :
  TryHandleSignal signum info s = (Normal b, s', t) ->
  P (EvSetThreadInWasm false, set_thread_in_wasm_code false s) ->
  (forall e s1, in_unmask_window e = true \/ e = EvSigmask SIG_UNBLOCK unmasked ->
     g_thread_in_wasm_code s1 = false ->
     blocked s1 = Z.ldiff (blocked s) unmasked ->
     P (e, s1)) ->
  (forall s1, g_thread_in_wasm_code s1 = false -> blocked s1 = blocked s ->
     P (EvSigmask SIG_SETMASK (blocked s), s1)) ->
  (forall s1, P (EvSetThreadInWasm true, s1)) ->
  Forall P t.
Proof.
  intros H H0 Hwin Hback Hlast.
  destruct (passes_filters signum info s) eqn:Hp.
  - rewrite (TryHandleSignal_run _ _ _ Hp) in H.
    destruct (find_landing _ _) as [v|]; cbv zeta in H; injection H as _ _ <-.
    all: constructor; [exact H0|].
    all: constructor; [apply Hwin; [right|..]; reflexivity|].
    all: constructor; [apply Hwin; [left|..]; reflexivity|].
    all: apply Forall_app; split;
      [apply scan_events_all; intros w; (apply Hwin; [left|..]; reflexivity)|].
    all: constructor; [apply Hwin; [left|..]; reflexivity|].
    all: constructor; [apply Hback; reflexivity|].
    all: repeat (constructor; [apply Hlast|]); constructor.
  - rewrite (TryHandleSignal_filtered _ _ _ Hp) in H.
    injection H as _ _ <-. constructor.
Qed.

(** X3: the flag is the guard against nested faults.  In every state
    the handler goes through before it sets the flag back, from the
    clearing of the flag on, a second fault, whatever its signal, origin
    and address, is declined at once: nothing is touched, the lock is
    not asked for. *)
Theorem X3_nested_fault_declined signum info s b s' t e s1 signum2 info2 :
  TryHandleSignal signum info s = (Normal b, s', t) ->
  (e, s1) ∈ t -> e <> EvSetThreadInWasm true ->
  TryHandleSignal signum2 info2 s1 = (Normal false, s1, []).
Proof.
  intros H Hin Hne.
  assert (Hall : Forall (fun es => es.1 <> EvSetThreadInWasm true ->
                                   g_thread_in_wasm_code es.2 = false) t).
  { apply (handler_trace_phases _ _ _ _ _ _ _ H).
    - intros _. reflexivity.
    - intros e0 s0 _ Hflag _ _. exact Hflag.
    - intros s0 Hflag _ _. exact Hflag.
    - intros s0 Hcontra. exfalso. apply Hcontra. reflexivity. }
  rewrite Forall_forall in Hall. specialize (Hall _ Hin Hne). simpl in Hall.
  apply TryHandleSignal_filtered. unfold passes_filters.
  rewrite Hall, andb_false_r. reflexivity.
Qed.

(** A second SIGSEGV at the protected instruction while the first
    handler holds the lock. *)
Lemma X3_witness :
  let s1 := scan_state (demo_state true 0x1010) in
  (EvLock, s1) ∈ (TryHandleSignal SIGSEGV kernel_info (demo_state true 0x1010)).2 /\
  metadata_lock_held s1 = true /\
  TryHandleSignal SIGSEGV kernel_info s1 = (Normal false, s1, []).
Proof.
  cbv zeta.
  assert (Hin : (EvLock, scan_state (demo_state true 0x1010)) ∈
                (TryHandleSignal SIGSEGV kernel_info (demo_state true 0x1010)).2).
  { do 2 apply list_elem_of_further. apply list_elem_of_here. }
  split; [exact Hin|]. split; [reflexivity|].
  apply (X3_nested_fault_declined SIGSEGV kernel_info (demo_state true 0x1010)
           true _ _ EvLock _ SIGSEGV kernel_info eq_refl Hin).
  discriminate.
Defined.

(** X4: the lock is taken and released, the slots are loaded and
    dereferenced and the saved instruction pointer is written with
    SIGSEGV unblocked, whether or not it was blocked at delivery: a
    fault of the handler itself in these accesses is delivered. *)
Theorem X4_scan_runs_with_SIGSEGV_unblocked signum info s b s' t e s1 :
  TryHandleSignal signum info s = (Normal b, s', t) ->
  (e, s1) ∈ t -> in_unmask_window e = true ->
  sigismember (blocked s1) SIGSEGV = false.
Proof.
  intros H Hin Hwin.
  assert (Hall : Forall (fun es => in_unmask_window es.1 = true ->
                                   sigismember (blocked es.2) SIGSEGV = false) t).
  { apply (handler_trace_phases _ _ _ _ _ _ _ H).
    - discriminate.
    - intros e0 s0 _ _ Hb _. simpl. rewrite Hb. apply sigismember_unblocked.
    - discriminate.
    - discriminate. }
  rewrite Forall_forall in Hall. exact (Hall _ Hin Hwin).
Qed.

(** Delivery with SIGSEGV and SIGBUS blocked. *)
Lemma X4_witness :
  let s := set_blocked 1088 (demo_state true 0x1010) in
  sigismember (blocked s) SIGSEGV = true /\
  (EvLock, scan_state s) ∈ (TryHandleSignal SIGSEGV kernel_info s).2 /\
  sigismember (blocked (scan_state s)) SIGSEGV = false.
Proof.
  cbv zeta.
  assert (Hin : (EvLock, scan_state (set_blocked 1088 (demo_state true 0x1010))) ∈
                (TryHandleSignal SIGSEGV kernel_info
                   (set_blocked 1088 (demo_state true 0x1010))).2).
  { do 2 apply list_elem_of_further. apply list_elem_of_here. }
  split; [reflexivity|]. split; [exact Hin|].
  apply (X4_scan_runs_with_SIGSEGV_unblocked SIGSEGV kernel_info
           (set_blocked 1088 (demo_state true 0x1010)) true _ _ EvLock _
           eq_refl Hin).
  reflexivity.
Defined.

(** *** The whole state after the handler *)

Lemma declined_inv signum info s s' t :
  TryHandleSignal signum info s = (Normal false, s', t) ->
  s' = s \/
  (g_thread_in_wasm_code s = true /\
   s' = set_thread_in_wasm_code true
          (set_blocked (blocked s)
             (set_metadata_lock_held false (scan_state s)))).
Proof.
  destruct (passes_filters signum info s) eqn:Hp.
  - rewrite (TryHandleSignal_run _ _ _ Hp).
    destruct (find_landing _ _) as [v|]; cbv zeta; intros H; [discriminate|].
    injection H as <- _. right.
    destruct (passes_filters_inv _ _ _ Hp) as (_ & _ & Hf).
    split; [exact Hf|reflexivity].
  - rewrite (TryHandleSignal_filtered _ _ _ Hp). intros H.
    injection H as <- _. left. reflexivity.
Qed.

(** X5: a declined fault leaves no trace in the state.  When the
    thread does not hold the lock at delivery and the handler returns
    false, the final state is the state of delivery, field for field:
    flag, blocked signals, lock, saved registers, registry,
    dispositions. *)
Theorem X5_declined_state_restored signum info s s' t :
  TryHandleSignal signum info s = (Normal false, s', t) ->
  metadata_lock_held s = false ->
  s' = s.
Proof.
  intros H Hl. apply declined_inv in H as [H|[Hf H]]; [exact H|].
  subst s'. destruct s as [f m l r o d x]. simpl in *. subst. reflexivity.
Qed.

Lemma X5_witness :
  metadata_lock_held (demo_state true 0x1020) = false /\
  (TryHandleSignal SIGSEGV kernel_info (demo_state true 0x1020)).1.2 =
  demo_state true 0x1020.
Proof.
  split; [reflexivity|].
  apply (X5_declined_state_restored SIGSEGV kernel_info
           (demo_state true 0x1020) _ _ eq_refl).
  reflexivity.
Defined.

(** X6: a resolved fault changes two things.  When the thread does not
    hold the lock at delivery and the handler returns true, the final
    state is the state of delivery with the flag false and the saved
    instruction pointer rewritten; blocked signals, lock, registry,
    dispositions and raised signals are as they were. *)
Theorem X6_resolved_state signum info s s' t :
  TryHandleSignal signum info s = (Normal true, s', t) ->
  metadata_lock_held s = false ->
  s' = set_REG_RIP (REG_RIP s') (set_thread_in_wasm_code false s).
Proof.
  intros H Hl. apply handled_inv in H as (_ & v & _ & ->).
  destruct s as [f m l r o d x]. simpl in *. subst. reflexivity.
Qed.

Lemma X6_witness :
  metadata_lock_held (demo_state true 0x1010) = false /\
  (TryHandleSignal SIGSEGV kernel_info (demo_state true 0x1010)).1.2 =
  set_REG_RIP 0x1050 (set_thread_in_wasm_code false (demo_state true 0x1010)).
Proof.
  split; [reflexivity|].
  apply (X6_resolved_state SIGSEGV kernel_info (demo_state true 0x1010)
           _ _ eq_refl).
  reflexivity.
Defined.

(** X7: after an unresolved fault [HandleSignal] returns with the
    state of delivery in which only the disposition of the signal has
    been replaced by the default one and, for a fault that is not
    kernel-generated, the signal has been raised.  The saved
    instruction pointer is the faulting one, so the instruction runs
    again under the default disposition. *)
Theorem X7_dispatcher_unresolved_state signum info s s1 t1 :
  TryHandleSignal signum info s = (Normal false, s1, t1) ->
  metadata_lock_held s = false ->
  exists t,
    HandleSignal signum info s =
    (Normal tt,
     if IsKernelGeneratedSignal info
     then set_disposition signum default_action s
     else add_raised signum (set_disposition signum default_action s),
     t).
Proof.
  intros H Hl.
  pose proof H as Hs. apply declined_inv in Hs.
  assert (s1 = s) as ->.
  { destruct Hs as [Hs|[Hf Hs]]; [exact Hs|].
    subst s1. destruct s as [f m l r o d x]. simpl in *. subst. reflexivity. }
  unfold HandleSignal, bind, sigaction, raise, step, pure. rewrite H.
  cbn [negb]. fold default_action.
  destruct (IsKernelGeneratedSignal info); cbn [negb]; eexists; reflexivity.
Qed.

Lemma X7_witness :
  metadata_lock_held (demo_state true 0x1020) = false /\
  exists t,
    HandleSignal SIGSEGV kernel_info (demo_state true 0x1020) =
    (Normal tt, set_disposition SIGSEGV default_action (demo_state true 0x1020), t).
Proof.
  split; [reflexivity|].
  apply (X7_dispatcher_unresolved_state SIGSEGV kernel_info
           (demo_state true 0x1020) _ _ eq_refl).
  reflexivity.
Defined.

(** *** What decides the answer *)

(** X8: with the values Linux gives to [SI_USER], [SI_QUEUE],
    [SI_TIMER], [SI_ASYNCIO] and [SI_MESGQ], none of them positive, the
    five comparisons of [IsKernelGeneratedSignal] after the first never
    decide: a signal is kernel-generated exactly when its [si_code] is
    positive. *)
Theorem X8_kernel_generated_iff_positive info :
  IsKernelGeneratedSignal info = true <-> 0 < si_code info.
Proof.
  unfold IsKernelGeneratedSignal, SI_USER, SI_QUEUE, SI_TIMER, SI_ASYNCIO,
    SI_MESGQ.
  split.
  - intros H. repeat (apply andb_prop in H as [H _]).
    apply Z.ltb_lt. exact H.
  - intros H.
    repeat (apply andb_true_intro; split);
      first [apply Z.ltb_lt; exact H
            |apply negb_true_iff, Z.eqb_neq; lia].
Qed.



(** *** Bounds *)

Lemma fault_offset_in_range d a :
  range_typed d = true -> in_code_range d a = true ->
  fault_offset d a = a - base d /\ 0 <= a - base d < size d.
Proof.
  unfold range_typed, in_code_range, fault_offset, sext64, wrap64.
  intros Ht Hr.
  apply andb_prop in Ht as [Ht Hmax]. apply andb_prop in Ht as [Hb Hs].
  apply andb_prop in Hr as [Hlo Hhi].
  apply Z.leb_le in Hb, Hs, Hmax, Hlo. apply Z.ltb_lt in Hhi.
  change (2 ^ 64) with 18446744073709551616 in *.
  change (2 ^ 63) with 9223372036854775808 in *.
  Z.div_mod_to_equations. lia.
Qed.

(** X10: when the base and size of every live code object are
    non-negative and the size fits a [ptrdiff_t], a fault is only ever
    resolved through an entry whose [instr_offset] lies in
    [[0, size)], the fault address being the base plus that offset
    without wrap-around: an entry with a negative offset or an offset
    of [size] or more is dead. *)
Theorem X10_resolved_offset_within_size signum info s s' t :
  TryHandleSignal signum info s = (Normal true, s', t) ->
  registry_typed (gCodeObjects s) = true ->
  exists k e d ins,
    gCodeObjects s !! k = Some e /\ code_info e = Some d /\
    ins ∈ instructions d /\
    0 <= instr_offset ins < size d /\
    fault_address s = base d + instr_offset ins /\
    REG_RIP s' = landing_addr d ins.
Proof.
  intros H Ht. apply handled_inv in H as (_ & v & Hf & ->).
  apply find_landing_inv in Hf
    as (k & e & d & j & ins & Hslot & Hd & Hr & Hl & -> & _).
  apply list_find_Some in Hl as (Hj & Hm & _).
  assert (Hd' : range_typed d = true).
  { unfold registry_typed in Ht. rewrite forallb_forall in Ht.
    assert (Hin : In e (gCodeObjects s)).
    { apply list_elem_of_In. eapply list_elem_of_lookup_2. exact Hslot. }
    specialize (Ht e Hin). rewrite Hd in Ht. exact Ht. }
  destruct (fault_offset_in_range d _ Hd' Hr) as [Ho Hb].
  unfold matches_offset in Hm. rewrite Ho in Hm.
  exists k, e, d, ins. repeat split; try assumption.
  - eapply list_elem_of_lookup_2. exact Hj.
  - lia.
  - lia.
  - lia.
  - simpl. unfold landing_addr. rewrite Z.add_comm. reflexivity.
Qed.

(** The second entry, with the offset [-0xff0], is at the address
    [0x10] in pointer arithmetic, outside the range. *)
Lemma X10_witness :
  let R := mk_info 0x1000 0x100 [mk_instr 0x10 0x50; mk_instr (-0xff0) 0x60] in
  let s := mk_state true 0 false 0x1010 [mk_entry (Some R)] ∅ [] in
  registry_typed (gCodeObjects s) = true /\
  exists k e d ins,
    gCodeObjects s !! k = Some e /\ code_info e = Some d /\
    ins ∈ instructions d /\
    0 <= instr_offset ins < size d /\
    fault_address s = base d + instr_offset ins /\
    REG_RIP (TryHandleSignal SIGSEGV kernel_info s).1.2 = landing_addr d ins.
Proof.
  cbv zeta. split; [reflexivity|].
  apply (X10_resolved_offset_within_size SIGSEGV kernel_info
           (mk_state true 0 false 0x1010
              [mk_entry (Some (mk_info 0x1000 0x100
                                 [mk_instr 0x10 0x50; mk_instr (-0xff0) 0x60]))]
              ∅ []) _ _ eq_refl).
  reflexivity.
Defined.

(** X11: the range test adds base and size in [uintptr_t].  A code
    object of size 0, and one whose end [base + size] reaches [2^64]
    and wraps, contain no address for the handler: the test fails for
    every fault address, so no fault is resolved in them. *)
Theorem X11_empty_or_wrapping_range d a :
  0 <= base d < 2 ^ 64 -> 0 <= size d < 2 ^ 64 ->
  size d = 0 \/ 2 ^ 64 <= base d + size d ->
  in_code_range d a = false /\ landing_in d a = None.
Proof.
  intros Hb Hs Hcase.
  assert (Hr : in_code_range d a = false).
  { unfold in_code_range, wrap64.
    apply andb_false_iff.
    destruct (Z.leb_spec (base d) a) as [Hle|Hlt]; [right|left; reflexivity].
    apply Z.ltb_ge.
    change (2 ^ 64) with 18446744073709551616 in *.
    Z.div_mod_to_equations. lia. }
  split; [exact Hr|]. apply landing_in_outside. exact Hr.
Qed.

(** The last 256 bytes of the address space, with a protected
    instruction at their first byte. *)
Lemma X11_witness :
  let d := mk_info (2 ^ 64 - 0x100) 0x100 [mk_instr 0 0x50] in
  in_code_range d (2 ^ 64 - 0x100) = false /\
  landing_in d (2 ^ 64 - 0x100) = None.
Proof.
  cbv zeta. apply X11_empty_or_wrapping_range.
  - vm_compute. split; [discriminate|reflexivity].
  - vm_compute. split; [discriminate|reflexivity].
  - right. vm_compute. discriminate.
Defined.

(** *** The order of the scan *)



